(** * sapcli: ATC ADT wrappers ([sap/adt/atc.py])

    A shallow embedding of the ATC module of sapcli: the customizing
    reader ([fetch_customizing] and its SAX handler), the declared XML
    bindings of the run request and run response, and the check runner
    ([ChecksRunner]) that drives the work-list protocol over an ADT
    connection.

    The connection object, the SAX tokenizer and the logging facility are
    collaborators of the module; they appear here as the fields of the
    class [Collaborators].  The marshalling engine ([sap.adt.marshalling])
    is used by [run_for] through the same class, and is modelled on its own
    in the module [Marshalling]. *)

From Stdlib Require Import ZArith DecimalString.
From stdpp Require Import base option list strings gmap.

Set Warnings "-register-all".

Local Open Scope Z_scope.

(** ** Python values

    Instances of the declared classes are dynamic objects: a class name and
    the slots that have been assigned so far, in assignment order.  A slot
    that was never assigned reads as [None] in Python; here it is absent
    from the list. *)

Inductive value : Type :=
| VInt (z : Z)
| VStr (s : string)
| VObject (cls : string) (slots : list (string * value))
| VContainer (cls : string) (items : list value).

Definition slots_of (o : value) : list (string * value) :=
  match o with
  | VObject _ slots => slots
  | _ => []
  end.

Fixpoint assoc {A : Type} (k : string) (l : list (string * A)) : option A :=
  match l with
  | [] => None
  | (k', v) :: l' => if decide (k = k') then Some v else assoc k l'
  end.

(** [getattr o f]: the value of slot [f], [None] when it was never set. *)
Definition getattr (o : value) (f : string) : option value :=
  assoc f (slots_of o).

Fixpoint assoc_set {A : Type} (k : string) (v : A) (l : list (string * A))
  : list (string * A) :=
  match l with
  | [] => [(k, v)]
  | (k', v') :: l' =>
      if decide (k = k') then (k, v) :: l' else (k', v') :: assoc_set k v l'
  end.

(** [setattr o f v]: assignment [o.f = v]. *)
Definition setattr (o : value) (f : string) (v : value) : value :=
  match o with
  | VObject cls slots => VObject cls (assoc_set f v slots)
  | _ => o
  end.

(** ** The transport contract

    [connection.execute(method, path, params=, accept=, content_type=,
    body=)] returns a response object of which only [text] is read. *)

Inductive http_method := GET | POST.

#[export] Instance http_method_eq_dec : EqDecision http_method.
Proof. solve_decision. Defined.

Inductive accept_header :=
| AcceptOne (mime : string)
| AcceptList (mimes : list string).

Record Request := mkRequest {
  req_method : http_method;
  req_path : string;
  req_params : option (gmap string string);
  req_accept : option accept_header;
  req_content_type : option string;
  req_body : option string
}.

Record Response := mkResponse { text : string }.

(** ** SAX events, as delivered to a [ContentHandler] *)

Inductive sax_event :=
| StartElement (name : string) (attrs : gmap string string)
| Characters (content : string)
| EndElement (name : string).

(** ** Outcomes of a call: a result or a raised exception *)

Inductive outcome (E A : Type) : Type :=
| Return (a : A)
| Raise (e : E).
Arguments Return {E A} a.
Arguments Raise {E A} e.

(** ** Collaborators of the module

    [World] is everything behind the connection (the connection object's
    own state and the remote system); a call of [execute] may change it and
    may raise.  [Connection] is the type of references to connection
    objects. *)

Class Collaborators := {
  Exn : Type;
  World : Type;
  Connection : Type;
  conn_execute : Connection → Request → World → World * outcome Exn Response;
  sax_parseString : string → outcome Exn (list sax_event);
  Marshal_serialize : value → outcome Exn string;
  Marshal_deserialize : string → value → outcome Exn value
}.

(** ** The check runner object and the heap *)

Record ChecksRunner `{Collaborators} := mkChecksRunner {
  _connection : Connection;
  _variant : string;
  _worklist_id : option string
}.

Record heap `{Collaborators} := mkHeap {
  self : ChecksRunner;
  world : World;
  (** every request handed to [execute], oldest first *)
  requests : list Request
}.

(** A computation reads and writes the heap and returns or raises. *)
Definition M `{Collaborators} (A : Type) : Type := heap → heap * outcome Exn A.

#[export] Instance M_ret `{Collaborators} : MRet M :=
  λ A a h, (h, Return a).

#[export] Instance M_bind `{Collaborators} : MBind M :=
  λ A B f m h,
    match m h with
    | (h', Return a) => f a h'
    | (h', Raise e) => (h', Raise e)
    end.

(** A pure call that may raise. *)
Definition call `{Collaborators} {A : Type} (r : outcome Exn A) : M A :=
  λ h, (h, r).

(** [connection.execute(...)]: the request is recorded, the world moves. *)
Definition execute `{Collaborators} (conn : Connection) (req : Request)
  : M Response :=
  λ h,
    let '(w, r) := conn_execute conn req (world h) in
    ({| self := self h; world := w; requests := requests h ++ [req] |}, r).

Definition get_self `{Collaborators} : M ChecksRunner :=
  λ h, (h, Return (self h)).

(** [self._worklist_id = v] *)
Definition set_worklist_id `{Collaborators} (v : string) : M unit :=
  λ h,
    ({| self := {| _connection := _connection (self h);
                   _variant := _variant (self h);
                   _worklist_id := Some v |};
        world := world h;
        requests := requests h |}, Return ()).

(** ** ATC customizing (lines 15-66) *)

Definition CUSTOMIZING_MIME_TYPE_V1 : string :=
  "application/vnd.sap.atc.customizing-v1+xml".

Record Customizing := mkCustomizing { system_check_variant : option string }.

(** [Customizing.__init__(system_check_variant=None)] *)
Definition Customizing_init : Customizing :=
  {| system_check_variant := None |}.

(** [ATCCustomizingXMLHandler.startElement] *)
Definition startElement (customizing : Customizing) (name : string)
    (attrs : gmap string string) : Customizing :=
  if bool_decide (name = "property"
                  ∧ attrs !! "name" = Some "systemCheckVariant")
  then {| system_check_variant := attrs !! "value" |}
  else customizing.

(** The handler overrides [startElement] only; the other events keep the
    no-op behaviour of [ContentHandler]. *)
Definition handle_event (customizing : Customizing) (ev : sax_event)
  : Customizing :=
  match ev with
  | StartElement name attrs => startElement customizing name attrs
  | Characters _ => customizing
  | EndElement _ => customizing
  end.

(** [fetch_customizing(connection)].  The debug log line has no effect on
    the result and is left out. *)
Definition fetch_customizing `{Collaborators} (connection : Connection)
  : M Customizing :=
  resp ← execute connection
           (mkRequest GET "atc/customizing" None
              (Some (AcceptList ["application/xml"; CUSTOMIZING_MIME_TYPE_V1]))
              None None);
  let cust := Customizing_init in
  events ← call (sax_parseString (text resp));
  mret (foldl handle_event cust events).

(** ** The declared classes the runner instantiates (lines 69-181) *)

(** [RunRequest.__init__(obj_sets, max_verdicts)] *)
Definition RunRequest (obj_sets : value) (max_verdicts : Z) : value :=
  VObject "RunRequest" [("_sets", obj_sets); ("max_verdicts", VInt max_verdicts)].

(** An object-set selection, for the examples; its class [ADTObjectSets]
    is declared in [sap.adt.objects]. *)
Definition sample_selection : value :=
  VObject "ADTObjectSets" [("kind", VStr "inclusive")].

(** [RunResponse()] and [WorkList()]: fresh instances, nothing assigned. *)
Definition RunResponse : value := VObject "RunResponse" [].
Definition WorkList : value := VObject "WorkList" [].

Record WorkListRunResult := mkWorkListRunResult {
  run_response : value;
  worklist : value
}.

(** ** [ChecksRunner] (lines 184-227) *)

(** [ChecksRunner.__init__(connection, variant)] *)
Definition ChecksRunner_init `{Collaborators} (connection : Connection)
    (variant : string) : ChecksRunner :=
  {| _connection := connection; _variant := variant; _worklist_id := None |}.

(** The request of lines 199-201. *)
Definition create_worklist_request (variant : string) : Request :=
  mkRequest POST "atc/worklists" (Some {[ "checkVariant" := variant ]})
    (Some (AcceptOne "text/plain")) None None.

(** [ChecksRunner._get_id] *)
Definition _get_id `{Collaborators} : M string :=
  this ← get_self;
  match _worklist_id this with
  | None =>
      resp ← execute (_connection this) (create_worklist_request (_variant this));
      set_worklist_id (text resp);;
      (* the [return] reads the attribute back, which is [resp.text] now *)
      mret (text resp)
  | Some id => mret id
  end.

(** The request of lines 213-215. *)
Definition run_request_of (worklist_id request : string) : Request :=
  mkRequest POST "atc/runs" (Some {[ "worklistId" := worklist_id ]})
    (Some (AcceptOne "application/xml")) (Some "application/xml")
    (Some request).

(** The request of lines 220-222. *)
Definition fetch_worklist_request (worklist_id : string) : Request :=
  mkRequest GET ("atc/worklists/" +:+ worklist_id)
    (Some {[ "includeExemptedFindings" := "false" ]})
    (Some (AcceptOne "application/atc.worklist.v1+xml")) None None.

(** [ChecksRunner.run_for(obj_sets, max_verdicts=100)]; an omitted
    [max_verdicts] is [None] here. *)
Definition run_for `{Collaborators} (obj_sets : value)
    (max_verdicts : option Z) : M WorkListRunResult :=
  let run_request := RunRequest obj_sets (default 100 max_verdicts) in
  request ← call (Marshal_serialize run_request);
  worklist_id ← _get_id;
  this ← get_self;
  resp ← execute (_connection this) (run_request_of worklist_id request);
  run_response ← call (Marshal_deserialize (text resp) RunResponse);
  this ← get_self;
  resp ← execute (_connection this) (fetch_worklist_request worklist_id);
  worklist ← call (Marshal_deserialize (text resp) WorkList);
  mret (mkWorkListRunResult run_response worklist).

(** ** The marshalling engine and the declared bindings *)

Module Marshalling.

(** XML documents as trees.  Attribute order is the order of emission. *)
Inductive xml : Type :=
| Element (name : string) (attrs : list (string * string)) (children : list xml)
| Text (content : string).

(** The events the tokenizer delivers for a document, in document order. *)
Fixpoint sax_events (t : xml) : list sax_event :=
  match t with
  | Element name attrs children =>
      StartElement name (list_to_map attrs)
        :: (fix events_of (ts : list xml) : list sax_event :=
              match ts with
              | [] => []
              | t' :: ts' => sax_events t' ++ events_of ts'
              end) children
        ++ [EndElement name]
  | Text content => [Characters content]
  end.

(** Modelled from the spec: an entry of the Namespace Registry (section
    4.1), a prefix and its URI; the class [XMLNamespace] is in
    [sap.adt.objects]. *)
Record XMLNamespace := mkXMLNamespace { ns_prefix : string; ns_uri : string }.

(** Modelled from the spec: the Object Type Descriptor
    [{namespace_prefix, namespace_uri, content_type, root_element_name}] of
    section 3; the class [ADTObjectType] itself is in [sap.adt.objects].
    The source passes the namespace, the content type and the element name
    as third, fourth and sixth argument; the others are [None]. *)
Record ADTObjectType := mkADTObjectType {
  xmlnamespace : XMLNamespace;
  mimetype : string;
  xmlname : string
}.

(** [objtype.xmlelement]: the namespace-qualified root element name. *)
Definition xmlelement (t : ADTObjectType) : string :=
  ns_prefix (xmlnamespace t) +:+ ":" +:+ xmlname t.

(** Modelled from the spec: the scalar type a binding may declare
    (section 4.5, numeric/text semantics).  A binding that declares nothing
    is [AsText]: values travel as text and are not coerced. *)
Inductive scalar_type := AsText | AsDecimal.

(** Modelled from the spec: the Ordered Bindings of section 3 and the
    binding kinds of section 4.3, with the container types of section 4.4;
    the descriptor classes are in [sap.adt.annotations].  A kind lists its
    bindings in declaration order.  The collections that [atc.py] declares
    are all of the wrapped style, an [Element] binding whose factory is a
    container kind; the unwrapped style is not modelled. *)
Inductive kind : Type :=
| ObjectKind (cls : string) (objtype : option ADTObjectType)
    (bindings : list binding)
| ContainerKind (cls : string) (element_name : string) (element_kind : kind)
with binding : Type :=
| Attribute (field qualified_name : string) (scalar : scalar_type)
| TextNode (field qualified_name : string)
| ElementNode (field qualified_name : string) (factory : option kind).

Definition kind_bindings (k : kind) : list binding :=
  match k with
  | ObjectKind _ _ bindings => bindings
  | ContainerKind _ _ _ => []
  end.

(** Modelled from the spec: stringification of a scalar (section 4.3,
    Attribute: numbers in a locale-independent decimal format). *)
Definition stringify (v : value) : option string :=
  match v with
  | VInt z => Some (NilZero.string_of_int (Z.to_int z))
  | VStr s => Some s
  | _ => None
  end.

(** Modelled from the spec: reading a scalar back.  Only a binding that
    declares the decimal type parses; text that is no decimal numeral
    stays text. *)
Definition read_scalar (scalar : scalar_type) (s : string) : value :=
  match scalar with
  | AsText => VStr s
  | AsDecimal =>
      match NilZero.int_of_string s with
      | Some d => VInt (Z.of_int d)
      | None => VStr s
      end
  end.

Inductive marshal_error :=
| MissingObjectType (cls : string)
| NotAnInstance.

Section Engine.

(** The declared classes, by name. *)
Variable classes : gmap string kind.

(** Modelled from the spec: what one binding emits (section 4.3), the
    attributes it adds to the current element and the children it adds
    below it; [contents] holds the serialized contents of the slots.  A
    slot without value emits nothing; a nested value that cannot be
    serialized is a structural error. *)
Definition emit_binding (slots : list (string * value))
    (contents :
       list (string * outcome marshal_error (list (string * string) * list xml)))
    (b : binding)
  : outcome marshal_error (list (string * string) * list xml) :=
  match b with
  | Attribute f q _ =>
      match assoc f slots ≫= stringify with
      | Some s => Return ([(q, s)], [])
      | None => Return ([], [])
      end
  | TextNode f q =>
      match assoc f slots ≫= stringify with
      | Some s => Return ([], [Element q [] [Text s]])
      | None => Return ([], [])
      end
  | ElementNode f q _ =>
      match assoc f contents with
      | Some (Return (attrs, children)) =>
          Return ([], [Element q attrs children])
      | Some (Raise e) => Raise e
      | None => Return ([], [])
      end
  end.

(** Modelled from the spec: the bindings emitted in declaration order. *)
Fixpoint emit_bindings (slots : list (string * value))
    (contents :
       list (string * outcome marshal_error (list (string * string) * list xml)))
    (bs : list binding)
  : outcome marshal_error (list (string * string) * list xml) :=
  match bs with
  | [] => Return ([], [])
  | b :: bs' =>
      match emit_binding slots contents b with
      | Raise e => Raise e
      | Return (a, c) =>
          match emit_bindings slots contents bs' with
          | Raise e => Raise e
          | Return (a', c') => Return (a ++ a', c ++ c')
          end
      end
  end.

(** Modelled from the spec: the recursive part of [serialize] (section
    4.5): the attributes and the children of the element that stands for
    [v], bindings in declaration order.  An instance of a class that is not
    declared, and a value that is no instance, are structural errors. *)
Fixpoint contents_of (v : value)
  : outcome marshal_error (list (string * string) * list xml) :=
  match v with
  | VInt _ | VStr _ => Raise NotAnInstance
  | VObject cls slots =>
      match classes !! cls with
      | Some (ObjectKind _ _ bindings) =>
          let contents :=
            (fix each (l : list (string * value)) :=
               match l with
               | [] => []
               | p :: l' => (p.1, contents_of p.2) :: each l'
               end) slots in
          emit_bindings slots contents bindings
      | _ => Raise (MissingObjectType cls)
      end
  | VContainer cls items =>
      match classes !! cls with
      | Some (ContainerKind _ element_name _) =>
          match
            (fix each (l : list value) : outcome marshal_error (list xml) :=
               match l with
               | [] => Return []
               | item :: l' =>
                   match contents_of item with
                   | Raise e => Raise e
                   | Return (a, c) =>
                       match each l' with
                       | Raise e => Raise e
                       | Return rest => Return (Element element_name a c :: rest)
                       end
                   end
               end) items
          with
          | Raise e => Raise e
          | Return elements => Return ([], elements)
          end
      | _ => Raise (MissingObjectType cls)
      end
  end.

(** Modelled from the spec: [serialize(instance)] (section 4.5).  The
    root is named by the Object Type Descriptor of the instance's kind and
    declares its namespace; a kind without descriptor is a structural
    error. *)
Definition serialize (o : value) : outcome marshal_error xml :=
  match o with
  | VObject cls _ =>
      match classes !! cls with
      | Some (ObjectKind _ (Some t) _) =>
          match contents_of o with
          | Raise e => Raise e
          | Return (attrs, children) =>
              let ns := xmlnamespace t in
              Return (Element (xmlelement t)
                        (("xmlns:" +:+ ns_prefix ns, ns_uri ns) :: attrs)
                        children)
          end
      | _ => Raise (MissingObjectType cls)
      end
  | _ => Raise NotAnInstance
  end.

(** Modelled from the spec: the frames of [deserialize] (section 4.5).
    A frame stands for one open element: an instance under construction
    with the place it is committed to, the wrapper element of a collection
    with the collection as far as it exists, the pending text of a
    text-node binding, or unbound structure that is passed over. *)
Inductive commit := ToTarget | ToField (field : string) | ToContainer.

Inductive frame :=
| FInstance (c : commit) (k : kind) (inst : value)
| FCollection (field : string) (k : kind) (collection : option value)
| FText (field : string) (buffer : string)
| FSkip.

(** Modelled from the spec: a new instance of a kind, as the factory of
    the binding makes it. *)
Definition fresh (k : kind) : value :=
  match k with
  | ObjectKind cls _ _ => VObject cls []
  | ContainerKind cls _ _ => VContainer cls []
  end.

(** Modelled from the spec: the Attribute bindings of the kind applied to
    the attributes of a start element; an attribute that is missing leaves
    its field as it is. *)
Definition apply_attributes (k : kind) (attrs : gmap string string)
    (inst : value) : value :=
  foldl (λ o b,
           match b with
           | Attribute f q scalar =>
               match attrs !! q with
               | Some s => setattr o f (read_scalar scalar s)
               | None => o
               end
           | _ => o
           end) inst (kind_bindings k).

(** Modelled from the spec: the first child binding, in declaration
    order, that is bound to the element name. *)
Fixpoint child_binding (name : string) (bs : list binding) : option binding :=
  match bs with
  | [] => None
  | Attribute _ _ _ :: bs' => child_binding name bs'
  | TextNode f q :: bs' =>
      if decide (q = name) then Some (TextNode f q) else child_binding name bs'
  | ElementNode f q factory :: bs' =>
      if decide (q = name) then Some (ElementNode f q factory)
      else child_binding name bs'
  end.

(** Modelled from the spec: the frame a start element opens below the
    frame [top].  A bound element pushes a frame for its binding: a new
    instance for a nested object, and for a collection the wrapper frame,
    which makes no collection yet.  An element that matches no binding, or
    a binding without factory, pushes a skip frame. *)
Definition open_frame (top : frame) (name : string)
    (attrs : gmap string string) : frame :=
  match top with
  | FInstance _ (ObjectKind _ _ bindings) inst =>
      match child_binding name bindings with
      | Some (TextNode f _) =>
          (* the first child element of that name is the one captured *)
          match getattr inst f with
          | None => FText f ""
          | Some _ => FSkip
          end
      | Some (ElementNode f _ (Some (ObjectKind cls t bs))) =>
          FInstance (ToField f) (ObjectKind cls t bs)
            (apply_attributes (ObjectKind cls t bs) attrs
               (fresh (ObjectKind cls t bs)))
      | Some (ElementNode f _ (Some (ContainerKind cls element_name k))) =>
          FCollection f (ContainerKind cls element_name k) (getattr inst f)
      | _ => FSkip
      end
  | FCollection _ (ContainerKind _ element_name element_kind) _ =>
      if decide (element_name = name)
      then FInstance ToContainer element_kind
             (apply_attributes element_kind attrs (fresh element_kind))
      else FSkip
  | _ => FSkip
  end.

Definition append_item (o item : value) : value :=
  match o with
  | VContainer cls items => VContainer cls (items ++ [item])
  | _ => o
  end.

(** Modelled from the spec: what the end of an element commits to the
    frame below: the text of a text node, the nested instance of an
    element binding, one more item of a collection, which is created when
    its first item arrives, or the collection itself if it exists. *)
Definition commit_to (closed below : frame) : frame :=
  match below with
  | FInstance c k inst =>
      match closed with
      | FText f buffer => FInstance c k (setattr inst f (VStr buffer))
      | FInstance (ToField f) _ child => FInstance c k (setattr inst f child)
      | FCollection f _ (Some collection) =>
          FInstance c k (setattr inst f collection)
      | _ => below
      end
  | FCollection f k collection =>
      match closed with
      | FInstance ToContainer _ item =>
          FCollection f k (Some (append_item (default (fresh k) collection) item))
      | _ => below
      end
  | _ => below
  end.

(** Modelled from the spec: one event of the tokenizer.  The state is the
    stack of open frames, innermost first, and the target instance; the
    root element opens the frame of the target when it bears the name of
    the target's Object Type Descriptor. *)
Definition on_event (target_kind : option kind) (st : list frame * value)
    (ev : sax_event) : list frame * value :=
  let '(stack, target) := st in
  match ev with
  | StartElement name attrs =>
      match stack with
      | [] =>
          match target_kind with
          | Some (ObjectKind cls (Some t) bs) =>
              if decide (xmlelement t = name)
              then ([FInstance ToTarget (ObjectKind cls (Some t) bs)
                       (apply_attributes (ObjectKind cls (Some t) bs) attrs
                          target)], target)
              else ([FSkip], target)
          | _ => ([FSkip], target)
          end
      | top :: _ => (open_frame top name attrs :: stack, target)
      end
  | Characters content =>
      match stack with
      | FText f buffer :: stack' => (FText f (buffer +:+ content) :: stack', target)
      | _ => st
      end
  | EndElement _ =>
      match stack with
      | [] => st
      | [FInstance ToTarget _ inst] => ([], inst)
      | [_] => ([], target)
      | closed :: below :: stack' => (commit_to closed below :: stack', target)
      end
  end.

(** The declared kind of an instance. *)
Definition class_of (o : value) : option kind :=
  match o with
  | VObject cls _ => classes !! cls
  | _ => None
  end.

(** Modelled from the spec: [deserialize(document, target_instance)]
    (section 4.5), on the events of the document.  The result is the
    target after its population in place. *)
Definition deserialize_events (events : list sax_event) (target : value)
  : value :=
  (foldl (on_event (class_of target)) ([], target) events).2.

(** Modelled from the spec: [deserialize] on a document, through the
    events of its tokenizer. *)
Definition deserialize (document : xml) (target : value) : value :=
  deserialize_events (sax_events document) target.

(** Modelled from the spec: what a field without value reads as.  A
    collection binding that no child has filled reads as the empty
    collection of its container type (section 8: empty containers round
    trip, and scenario B has "an empty info collection (not absent)"); any
    other binding without value is unset (section 7). *)
Fixpoint field_default (f : string) (bs : list binding) : option value :=
  match bs with
  | [] => None
  | ElementNode f' _ (Some (ContainerKind cls _ _)) :: bs' =>
      if decide (f' = f) then Some (VContainer cls []) else field_default f bs'
  | _ :: bs' => field_default f bs'
  end.

(** Modelled from the spec: reading a bound field of an instance. *)
Definition field_value (o : value) (f : string) : option value :=
  match getattr o f with
  | Some v => Some v
  | None =>
      match class_of o with
      | Some k => field_default f (kind_bindings k)
      | None => None
      end
  end.

End Engine.

(** *** The declarations of [atc.py] (lines 17-113) *)

Definition XMLNS_ATC := mkXMLNamespace "atc" "http://www.sap.com/adt/atc".
Definition XMLNS_ATCINFO :=
  mkXMLNamespace "atcinfo" "http://www.sap.com/adt/atc/info".
Definition XMLNS_ATCWORKLIST :=
  mkXMLNamespace "atcworklist" "http://www.sap.com/adt/atc/worklist".

(** [class RunRequest]: [objtype], then [max_verdicts], then [sets].

    Modelled from the spec: the scalar type of [max_verdicts].  The
    declaration [XmlNodeAttributeProperty('maximumVerdicts')] names the
    attribute only, and the descriptor class is in [sap.adt.annotations];
    section 4.5 of the spec gives the count-like attribute of the run
    request the decimal type. *)
Definition RunRequest_kind : kind :=
  ObjectKind "RunRequest"
    (Some (mkADTObjectType XMLNS_ATC "application/xml" "run"))
    [ Attribute "max_verdicts" "maximumVerdicts" AsDecimal;
      ElementNode "_sets" "objectSets" None ].

(** [class ATCInfo] *)
Definition ATCInfo_objtype : ADTObjectType :=
  mkADTObjectType XMLNS_ATCINFO "application/xml" "info".

Definition ATCInfo_kind : kind :=
  ObjectKind "ATCInfo" (Some ATCInfo_objtype)
    [ TextNode "typ" "atcinfo:type";
      TextNode "description" "atcinfo:description" ].

(** [ATCInfoList = XmlContainer.define(ATCInfo.objtype.xmlelement, ATCInfo)] *)
Definition ATCInfoList : kind :=
  ContainerKind "ATCInfoList" (xmlelement ATCInfo_objtype) ATCInfo_kind.

(** [class RunResponse] *)
Definition RunResponse_kind : kind :=
  ObjectKind "RunResponse"
    (Some (mkADTObjectType XMLNS_ATCWORKLIST "application/xml" "worklistRun"))
    [ TextNode "worklist_id" "atcworklist:worklistId";
      TextNode "timestamp" "atcworklist:worklistTimestamp";
      ElementNode "infos" "atcworklist:infos" (Some ATCInfoList) ].

Definition atc_classes : gmap string kind :=
  list_to_map [ ("RunRequest", RunRequest_kind); ("ATCInfo", ATCInfo_kind);
                ("ATCInfoList", ATCInfoList); ("RunResponse", RunResponse_kind) ].

(** *** Sample declarations and documents *)

(** A stand-in for the class of the object-set selection, which is
    declared in [sap.adt.objects]: one attribute, the kind of the set. *)
Definition sample_sets_kind : kind :=
  ObjectKind "ADTObjectSets" None [ Attribute "kind" "kind" AsText ].

Definition sample_classes : gmap string kind :=
  <[ "ADTObjectSets" := sample_sets_kind ]> atc_classes.

(** The run request with the verdict bound left as text, for comparison
    with the decimal type that the spec gives it. *)
Definition RunRequest_text_kind : kind :=
  ObjectKind "RunRequest"
    (Some (mkADTObjectType XMLNS_ATC "application/xml" "run"))
    [ Attribute "max_verdicts" "maximumVerdicts" AsText;
      ElementNode "_sets" "objectSets" None ].

(** A run response with its two text nodes, followed by [rest]. *)
Definition worklist_run_document (rest : list xml) : xml :=
  Element "atcworklist:worklistRun"
    [("xmlns:atcworklist", "http://www.sap.com/adt/atc/worklist")]
    ([ Element "atcworklist:worklistId" [] [Text "4711"];
       Element "atcworklist:worklistTimestamp" [] [Text "20230101000000"] ]
     ++ rest).



End Marshalling.

(** ** Overlapping invocations of [_get_id]

    [_get_id] line by line, for callers that share one runner.  A caller
    is at one of the lines 198 (the test), 199 (the call of [execute]), 202
    (the assignment, holding the response) or 204 (the [return]), or it has
    finished.  One step runs one line; the source takes no lock, so any
    other caller may run between two steps. *)

Inductive pc `{Collaborators} :=
| Line198
| Line199
| Line202 (resp : Response)
| Line204
| Returned (id : option string)
| Raised (e : Exn).

Definition step `{Collaborators} (p : pc) (h : heap) : heap * pc :=
  match p with
  | Line198 =>
      (h, match _worklist_id (self h) with None => Line199 | Some _ => Line204 end)
  | Line199 =>
      match execute (_connection (self h))
              (create_worklist_request (_variant (self h))) h with
      | (h', Return resp) => (h', Line202 resp)
      | (h', Raise e) => (h', Raised e)
      end
  | Line202 resp => ((set_worklist_id (text resp) h).1, Line204)
  | Line204 => (h, Returned (_worklist_id (self h)))
  | Returned _ | Raised _ => (h, p)
  end.

(** A schedule names, step by step, the caller that runs next. *)
Definition run_caller `{Collaborators} (st : heap * list pc) (i : nat)
  : heap * list pc :=
  match st.2 !! i with
  | Some p => ((step p st.1).1, <[i:=(step p st.1).2]> st.2)
  | None => st
  end.

Definition run_schedule `{Collaborators} (schedule : list nat)
    (st : heap * list pc) : heap * list pc :=
  foldl run_caller st schedule.

(** A caller between its test and its assignment: it has found no
    identifier and has not stored one yet (lines 199 to 202). *)
Definition inside `{Collaborators} (p : pc) : bool :=
  match p with
  | Line199 | Line202 _ => true
  | _ => false
  end.




(** The exclusion a lock around lines 198 to 202 would give: a caller may
    run its test only while no caller is between test and assignment.  A
    schedule is exclusive when every step it takes is admitted. *)
Definition admitted `{Collaborators} (st : heap * list pc) (i : nat) : bool :=
  match st.2 !! i with
  | Some Line198 => forallb (λ p, negb (inside p)) st.2
  | _ => true
  end.

Fixpoint exclusive `{Collaborators} (schedule : list nat)
    (st : heap * list pc) : bool :=
  match schedule with
  | [] => true
  | i :: schedule' => admitted st i && exclusive schedule' (run_caller st i)
  end.



(** A caller that has not made its creation request yet but may still make
    it: it is at the test or past it on the way to [execute]. *)
Definition awaiting `{Collaborators} (p : pc) : bool :=
  match p with
  | Line198 | Line199 => true
  | _ => false
  end.

Definition pending `{Collaborators} (callers : list pc) : nat :=
  length (filter (λ p, Is_true (awaiting p)) callers).

(** What a caller relies on at its place: at the [return] the identifier
    is there, and a value that was returned is an identifier. *)
Definition caller_sound `{Collaborators} (h : heap) (p : pc) : Prop :=
  match p with
  | Line204 => is_Some (_worklist_id (self h))
  | Returned id => is_Some id
  | _ => True
  end.

(** The creation requests among the recorded requests. *)
Definition creations (reqs : list Request) : list Request :=
  filter (λ r, req_method r = POST ∧ req_path r = "atc/worklists") reqs.

(** ** Sequences of invocations on one runner

    The caller may invoke the two methods in any order and carries on after
    an exception. *)

Inductive invocation :=
| Invoke_get_id
| Invoke_run_for (obj_sets : value) (max_verdicts : option Z).

Definition invoke `{Collaborators} (h : heap) (c : invocation) : heap :=
  match c with
  | Invoke_get_id => (_get_id h).1
  | Invoke_run_for obj_sets max_verdicts => (run_for obj_sets max_verdicts h).1
  end.

(** The cached identifier, once set, stays what it is. *)
Definition cache_kept (before after : option string) : Prop :=
  match before with
  | Some id => after = Some id
  | None => True
  end.

(** ** The customizing value as a function of the document

    The start tags of [property] elements named [systemCheckVariant], in
    document order; the last of them decides, by its [value] attribute. *)

Definition variant_property (ev : sax_event) : option (gmap string string) :=
  match ev with
  | StartElement name attrs =>
      if bool_decide (name = "property"
                      ∧ attrs !! "name" = Some "systemCheckVariant")
      then Some attrs else None
  | _ => None
  end.

Definition last_variant_value (events : list sax_event) : option string :=
  match last (omap variant_property events) with
  | Some attrs => attrs !! "value"
  | None => None
  end.

(** ** A scripted connection

    The collaborators of the unit tests: a connection that answers from a
    list of prepared outcomes, a tokenizer that knows one document, and a
    marshaller that keeps the text it is given. *)

Definition customizing_document : string :=
  "<atc:customizing><properties><property name='systemCheckVariant' value='STANDARD'/></properties></atc:customizing>".

Definition customizing_events : list sax_event :=
  [ StartElement "atc:customizing" ∅;
    StartElement "properties" ∅;
    StartElement "property"
      (list_to_map [("name", "systemCheckVariant"); ("value", "STANDARD")]);
    EndElement "property";
    EndElement "properties";
    EndElement "atc:customizing" ].

Definition Scripted : Collaborators := {|
  Exn := string;
  World := list (outcome string Response);
  Connection := unit;
  conn_execute := λ _ _ w,
    match w with
    | [] => ([], Raise "no response left")
    | r :: w' => (w', r)
    end;
  sax_parseString := λ s,
    if decide (s = customizing_document) then Return customizing_events
    else Raise "SAXParseException";
  Marshal_serialize := λ _, Return "<atc:run/>";
  Marshal_deserialize := λ document target,
    Return (setattr target "document" (VStr document))
|}.

(** The same collaborators with a marshaller that shows what it is given:
    the verdict bound of the run request and the class of its object
    sets. *)
Definition Echoing : Collaborators := {|
  Exn := string;
  World := list (outcome string Response);
  Connection := unit;
  conn_execute := λ _ _ w,
    match w with
    | [] => ([], Raise "no response left")
    | r :: w' => (w', r)
    end;
  sax_parseString := λ _, Raise "SAXParseException";
  Marshal_serialize := λ o,
    match o with
    | VObject "RunRequest"
        [("_sets", VObject cls _); ("max_verdicts", VInt bound)] =>
        Return ("<atc:run maximumVerdicts='"
                +:+ NilZero.string_of_int (Z.to_int bound)
                +:+ "'><objectSets class='" +:+ cls +:+ "'/></atc:run>")
    | _ => Raise "not a run request"
    end;
  Marshal_deserialize := λ document target,
    Return (setattr target "document" (VStr document))
|}.

(** An answer with the given text. *)
Definition answer (s : string) : outcome string Response :=
  Return (mkResponse s).

(** What the scripted marshaller makes of two answers. *)
Definition kept (run list : string) : WorkListRunResult :=
  mkWorkListRunResult (VObject "RunResponse" [("document", VStr run)])
    (VObject "WorkList" [("document", VStr list)]).

(** A new runner on a scripted connection with the given answers. *)
Definition scripted_heap (answers : list (outcome string Response))
  : @heap Scripted :=
  @mkHeap Scripted (@ChecksRunner_init Scripted () "STANDARD") answers [].

(** * Properties *)

(** ** The monad *)

Section Monad_facts.
Context `{Collaborators}.

Lemma bind_Return {A B : Type} (m : M A) (f : A → M B) h h' a :
  m h = (h', Return a) → (m ≫= f) h = f a h'.
Proof. intros Hm. unfold mbind, M_bind. by rewrite Hm. Qed.

Lemma bind_Raise {A B : Type} (m : M A) (f : A → M B) h h' e :
  m h = (h', Raise e) → (m ≫= f) h = (h', Raise e).
Proof. intros Hm. unfold mbind, M_bind. by rewrite Hm. Qed.

Lemma call_Return {A B : Type} (r : outcome Exn A) (f : A → M B) h a :
  r = Return a → (call r ≫= f) h = f a h.
Proof. intros ->. reflexivity. Qed.

Lemma execute_eq conn req h w r :
  conn_execute conn req (world h) = (w, r) →
  execute conn req h
  = ({| self := self h; world := w; requests := requests h ++ [req] |}, r).
Proof. intros Hc. unfold execute. by rewrite Hc. Qed.

(** [execute] touches neither the runner nor the earlier requests. *)
Lemma execute_self conn req h : self (execute conn req h).1 = self h.
Proof. unfold execute. by destruct (conn_execute conn req (world h)). Qed.

Lemma execute_requests conn req h :
  requests (execute conn req h).1 = requests h ++ [req].
Proof. unfold execute. by destruct (conn_execute conn req (world h)). Qed.

End Monad_facts.

(** ** [_get_id] *)

Section Get_id_facts.
Context `{Collaborators}.

Lemma get_id_cached h id :
  _worklist_id (self h) = Some id → _get_id h = (h, Return id).
Proof.
  intros Hid. unfold _get_id, mbind, M_bind, get_self. by rewrite Hid.
Qed.

Lemma get_id_created h w resp :
  _worklist_id (self h) = None →
  conn_execute (_connection (self h))
    (create_worklist_request (_variant (self h))) (world h)
  = (w, Return resp) →
  _get_id h
  = ({| self := {| _connection := _connection (self h);
                   _variant := _variant (self h);
                   _worklist_id := Some (text resp) |};
        world := w;
        requests := requests h
                    ++ [create_worklist_request (_variant (self h))] |},
     Return (text resp)).
Proof.
  intros Hid Hex. unfold _get_id, mbind, M_bind, get_self. rewrite Hid.
  by rewrite (execute_eq _ _ _ _ _ Hex).
Qed.

Lemma get_id_failed h w e :
  _worklist_id (self h) = None →
  conn_execute (_connection (self h))
    (create_worklist_request (_variant (self h))) (world h)
  = (w, Raise e) →
  _get_id h
  = ({| self := self h; world := w;
        requests := requests h
                    ++ [create_worklist_request (_variant (self h))] |},
     Raise e).
Proof.
  intros Hid Hex. unfold _get_id, mbind, M_bind, get_self. rewrite Hid.
  by rewrite (execute_eq _ _ _ _ _ Hex).
Qed.

(** Whatever happens, [_get_id] leaves the connection and the variant
    alone and keeps an identifier that is already cached. *)
Lemma get_id_frame h :
  _connection (self (_get_id h).1) = _connection (self h)
  ∧ _variant (self (_get_id h).1) = _variant (self h)
  ∧ cache_kept (_worklist_id (self h)) (_worklist_id (self (_get_id h).1)).
Proof.
  destruct (_worklist_id (self h)) as [id|] eqn:Hid.
  - rewrite (get_id_cached h id Hid). simpl. by rewrite Hid.
  - destruct (conn_execute (_connection (self h))
                (create_worklist_request (_variant (self h))) (world h))
      as [w [resp|e]] eqn:Hex.
    + by rewrite (get_id_created h w resp Hid Hex).
    + by rewrite (get_id_failed h w e Hid Hex).
Qed.

(** After a normal return the identifier is cached, and it is the one
    returned: the attribute read back by line 204. *)
Lemma get_id_returns_cache h h' id :
  _get_id h = (h', Return id) → _worklist_id (self h') = Some id.
Proof.
  destruct (_worklist_id (self h)) as [id0|] eqn:Hid.
  - rewrite (get_id_cached h id0 Hid). by intros [= <- <-].
  - destruct (conn_execute (_connection (self h))
                (create_worklist_request (_variant (self h))) (world h))
      as [w [resp|e]] eqn:Hex.
    + rewrite (get_id_created h w resp Hid Hex). by intros [= <- <-].
    + rewrite (get_id_failed h w e Hid Hex). by intros [=].
Qed.

End Get_id_facts.

Section Get_id_claims.
Context `{Collaborators}.

(** A normal return of [_get_id] on a runner without identifier: one
    creation request was recorded and its answer is cached. *)
Lemma get_id_fresh_inv h h1 id :
  _worklist_id (self h) = None →
  _get_id h = (h1, Return id) →
  requests h1 = requests h ++ [create_worklist_request (_variant (self h))]
  ∧ self h1 = {| _connection := _connection (self h);
                 _variant := _variant (self h);
                 _worklist_id := Some id |}.
Proof.
  intros Hid Hget.
  destruct (conn_execute (_connection (self h))
              (create_worklist_request (_variant (self h))) (world h))
    as [w [resp|e]] eqn:Hex.
  - rewrite (get_id_created h w resp Hid Hex) in Hget.
    by injection Hget as <- <-.
  - rewrite (get_id_failed h w e Hid Hex) in Hget. discriminate.
Qed.

(** C3: [_get_id] on a runner without cached identifier sends exactly
    one request, POST [atc/worklists] with the variant of the constructor
    as [checkVariant] and accepting [text/plain]; when it is answered the
    identifier is the response text as it is, it is cached and returned.
    On a runner with a cached identifier [_get_id] returns that
    identifier and changes nothing: no request, the world untouched. *)
Theorem get_id_creates_or_reuses (h : heap) :
  match _worklist_id (self h) with
  | Some id => _get_id h = (h, Return id)
  | None =>
      let req := mkRequest POST "atc/worklists"
                   (Some {[ "checkVariant" := _variant (self h) ]})
                   (Some (AcceptOne "text/plain")) None None in
      match conn_execute (_connection (self h)) req (world h) with
      | (w, Return resp) =>
          _get_id h
          = ({| self := {| _connection := _connection (self h);
                           _variant := _variant (self h);
                           _worklist_id := Some (text resp) |};
                world := w;
                requests := requests h ++ [req] |},
             Return (text resp))
      | (w, Raise e) =>
          (_get_id h).2 = Raise e
          ∧ requests (_get_id h).1 = requests h ++ [req]
      end
  end.
Proof.
  destruct (_worklist_id (self h)) as [id|] eqn:Hid.
  - by apply get_id_cached.
  - cbv zeta.
    destruct (conn_execute _ _ _) as [w [resp|e]] eqn:Hex.
    + by apply get_id_created.
    + by rewrite (get_id_failed h w e Hid Hex).
Qed.

(** C7: when the creation request of [_get_id] fails, the exception
    reaches the caller and the runner is exactly as before, its
    identifier still unset; the next [_get_id] sends the creation request
    again, and caches the identifier when that one is answered.  The same
    failure inside [run_for] leaves the same state. *)
Theorem get_id_failure_keeps_unset (h : heap) (w : World) (e : Exn)
    (Hunset : _worklist_id (self h) = None)
    (Hfail : conn_execute (_connection (self h))
               (create_worklist_request (_variant (self h))) (world h)
             = (w, Raise e)) :
  let h' := (_get_id h).1 in
  (_get_id h).2 = Raise e
  ∧ self h' = self h
  ∧ _worklist_id (self h') = None
  ∧ requests h' = requests h ++ [create_worklist_request (_variant (self h))]
  ∧ requests (_get_id h').1
    = requests h ++ [create_worklist_request (_variant (self h));
                     create_worklist_request (_variant (self h))]
  ∧ (∀ w' resp,
       conn_execute (_connection (self h))
         (create_worklist_request (_variant (self h))) w
       = (w', Return resp) →
       (_get_id h').2 = Return (text resp)
       ∧ _worklist_id (self (_get_id h').1) = Some (text resp))
  ∧ ∀ obj_sets max_verdicts request,
      Marshal_serialize (RunRequest obj_sets (default 100 max_verdicts))
      = Return request →
      run_for obj_sets max_verdicts h = (h', Raise e).
Proof.
  cbv zeta. rewrite (get_id_failed h w e Hunset Hfail). simpl.
  repeat split; try done;
    try (intros obj_sets max_verdicts request Hser;
         unfold run_for; rewrite (call_Return _ _ _ _ Hser);
         by erewrite bind_Raise; [|by apply get_id_failed]).
  - destruct (conn_execute (_connection (self h))
                (create_worklist_request (_variant (self h))) w)
      as [w' [resp|e']] eqn:Hagain.
    + rewrite (get_id_created _ w' resp); [|done..].
      simpl. by rewrite <- app_assoc.
    + rewrite (get_id_failed _ w' e'); [|done..].
      simpl. by rewrite <- app_assoc.
  - rewrite (get_id_created _ w' resp); done.
  - rewrite (get_id_created _ w' resp); done.
Qed.

End Get_id_claims.

(** ** [run_for] *)

Section Run_for_facts.
Context `{Collaborators}.

(** [run_for], call by call. *)
Lemma run_for_eq obj_sets max_verdicts h :
  run_for obj_sets max_verdicts h
  = match Marshal_serialize (RunRequest obj_sets (default 100 max_verdicts)) with
    | Raise e => (h, Raise e)
    | Return request =>
        match _get_id h with
        | (h1, Raise e) => (h1, Raise e)
        | (h1, Return worklist_id) =>
            match execute (_connection (self h1))
                    (run_request_of worklist_id request) h1 with
            | (h2, Raise e) => (h2, Raise e)
            | (h2, Return resp) =>
                match Marshal_deserialize (text resp) RunResponse with
                | Raise e => (h2, Raise e)
                | Return run_response =>
                    match execute (_connection (self h2))
                            (fetch_worklist_request worklist_id) h2 with
                    | (h3, Raise e) => (h3, Raise e)
                    | (h3, Return resp') =>
                        match Marshal_deserialize (text resp') WorkList with
                        | Raise e => (h3, Raise e)
                        | Return worklist =>
                            (h3, Return (mkWorkListRunResult run_response worklist))
                        end
                    end
                end
            end
        end
    end.
Proof.
  unfold run_for, mbind, M_bind, call, get_self, mret, M_ret.
  destruct (Marshal_serialize _) as [request|e]; [|done].
  destruct (_get_id h) as [h1 [worklist_id|e]]; [|done].
  destruct (execute _ _ h1) as [h2 [resp|e]]; [|done].
  destruct (Marshal_deserialize (text resp) RunResponse) as [rr|e]; [|done].
  destruct (execute _ _ h2) as [h3 [resp'|e]]; [|done].
  by destruct (Marshal_deserialize (text resp') WorkList).
Qed.

(** The runner after [run_for] is the runner after its [_get_id]. *)
Lemma run_for_self obj_sets max_verdicts h :
  self (run_for obj_sets max_verdicts h).1 = self h
  ∨ self (run_for obj_sets max_verdicts h).1 = self (_get_id h).1.
Proof.
  rewrite run_for_eq.
  destruct (Marshal_serialize _) as [request|e]; [|by left]. right.
  destruct (_get_id h) as [h1 [worklist_id|e]]; [|done]. simpl.
  pose proof (execute_self (_connection (self h1))
                (run_request_of worklist_id request) h1) as E2.
  destruct (execute _ _ h1) as [h2 [resp|e]]; [|done]. simpl in E2.
  destruct (Marshal_deserialize (text resp) RunResponse) as [rr|e]; [|done].
  pose proof (execute_self (_connection (self h2))
                (fetch_worklist_request worklist_id) h2) as E3.
  destruct (execute _ _ h2) as [h3 [resp'|e]]; simpl in *; [|congruence].
  destruct (Marshal_deserialize (text resp') WorkList); simpl; congruence.
Qed.


End Run_for_facts.

Section Runner_claims.
Context `{Collaborators}.


(** C2: [run_for(obj_sets, max_verdicts=100)] builds the run request, an
    instance of [RunRequest] that holds the object sets and the verdict
    bound, 100 when none is given, and serializes it before anything else; then it obtains the work-list identifier, POSTs the
    body to [atc/runs] with the identifier as [worklistId], deserializes
    the answer into a new [RunResponse] before it asks again, GETs
    [atc/worklists/<identifier>] with [includeExemptedFindings] set to
    [false], deserializes that into a new [WorkList], and returns the
    two. *)
Theorem run_for_steps (h : heap) (obj_sets : value) (max_verdicts : option Z) :
  let run_request :=
    VObject "RunRequest"
      [("_sets", obj_sets); ("max_verdicts", VInt (default 100 max_verdicts))] in
  (∀ e, Marshal_serialize run_request = Raise e →
        run_for obj_sets max_verdicts h = (h, Raise e))
  ∧ ∀ request h1 id,
      Marshal_serialize run_request = Return request →
      _get_id h = (h1, Return id) →
      let submit :=
        mkRequest POST "atc/runs" (Some {[ "worklistId" := id ]})
          (Some (AcceptOne "application/xml")) (Some "application/xml")
          (Some request) in
      let fetch :=
        mkRequest GET ("atc/worklists/" +:+ id)
          (Some {[ "includeExemptedFindings" := "false" ]})
          (Some (AcceptOne "application/atc.worklist.v1+xml")) None None in
      ∀ w2 resp2,
        conn_execute (_connection (self h1)) submit (world h1)
        = (w2, Return resp2) →
        (∀ e, Marshal_deserialize (text resp2) RunResponse = Raise e →
              run_for obj_sets max_verdicts h
              = ({| self := self h1; world := w2;
                    requests := requests h1 ++ [submit] |}, Raise e))
        ∧ ∀ run_response w3 resp3 worklist,
            Marshal_deserialize (text resp2) RunResponse = Return run_response →
            conn_execute (_connection (self h1)) fetch w2 = (w3, Return resp3) →
            Marshal_deserialize (text resp3) WorkList = Return worklist →
            run_for obj_sets max_verdicts h
            = ({| self := self h1; world := w3;
                  requests := requests h1 ++ [submit; fetch] |},
               Return (mkWorkListRunResult run_response worklist)).
Proof.
  cbv zeta.
  change (VObject "RunRequest"
            [("_sets", obj_sets);
             ("max_verdicts", VInt (default 100 max_verdicts))])
    with (RunRequest obj_sets (default 100 max_verdicts)).
  split.
  - intros e Hser. by rewrite run_for_eq, Hser.
  - intros request h1 id Hser Hget w2 resp2 Hsubmit.
    rewrite run_for_eq, Hser, Hget.
    unfold run_request_of, fetch_worklist_request.
    rewrite (execute_eq _ _ _ _ _ Hsubmit). split.
    + intros e Hdes. by rewrite Hdes.
    + intros rr w3 resp3 wl Hdes Hfetch Hdes'. rewrite Hdes.
      rewrite (execute_eq _ _ _ w3 (Return resp3)); [|done].
      simpl. rewrite Hdes', <- app_assoc. done.
Qed.

(** C6: an exception that the connection raises for the run submission,
    or for the result fetch, is the exception [run_for] raises; the
    failed request is the last one sent, nothing is sent again. *)
Theorem run_for_transport_failure (h h1 : heap) (obj_sets : value)
    (max_verdicts : option Z) (request id : string)
    (Hser : Marshal_serialize (RunRequest obj_sets (default 100 max_verdicts))
            = Return request)
    (Hget : _get_id h = (h1, Return id)) :
  (∀ w e,
     conn_execute (_connection (self h1)) (run_request_of id request) (world h1)
     = (w, Raise e) →
     run_for obj_sets max_verdicts h
     = ({| self := self h1; world := w;
           requests := requests h1 ++ [run_request_of id request] |},
        Raise e))
  ∧ (∀ w2 resp2 run_response w3 e,
       conn_execute (_connection (self h1)) (run_request_of id request) (world h1)
       = (w2, Return resp2) →
       Marshal_deserialize (text resp2) RunResponse = Return run_response →
       conn_execute (_connection (self h1)) (fetch_worklist_request id) w2
       = (w3, Raise e) →
       run_for obj_sets max_verdicts h
       = ({| self := self h1; world := w3;
             requests := requests h1 ++ [run_request_of id request;
                                         fetch_worklist_request id] |},
          Raise e)).
Proof.
  split.
  - intros w e Hsubmit. rewrite run_for_eq, Hser, Hget.
    by rewrite (execute_eq _ _ _ _ _ Hsubmit).
  - intros w2 resp2 rr w3 e Hsubmit Hdes Hfetch.
    rewrite run_for_eq, Hser, Hget.
    rewrite (execute_eq _ _ _ _ _ Hsubmit), Hdes.
    rewrite (execute_eq _ _ _ w3 (Raise e)); [|done].
    simpl. by rewrite <- app_assoc.
Qed.

Lemma cache_kept_trans a b c : cache_kept a b → cache_kept b c → cache_kept a c.
Proof. destruct a as [id|]; simpl; [|done]. by intros ->. Qed.

Lemma invoke_frame h c :
  _connection (self (invoke h c)) = _connection (self h)
  ∧ _variant (self (invoke h c)) = _variant (self h)
  ∧ cache_kept (_worklist_id (self h)) (_worklist_id (self (invoke h c))).
Proof.
  destruct c as [|obj_sets max_verdicts]; simpl.
  - apply get_id_frame.
  - destruct (run_for_self obj_sets max_verdicts h) as [-> | ->].
    + repeat split. by destruct (_worklist_id (self h)).
    + apply get_id_frame.
Qed.

(** C10: no sequence of [_get_id] and [run_for] calls, failing or not,
    changes the connection or the variant of the runner, and an
    identifier that is cached before the sequence is still the cached
    identifier after it. *)
Theorem runner_fields_stable (calls : list invocation) (h : heap) :
  _connection (self (foldl invoke h calls)) = _connection (self h)
  ∧ _variant (self (foldl invoke h calls)) = _variant (self h)
  ∧ cache_kept (_worklist_id (self h))
      (_worklist_id (self (foldl invoke h calls))).
Proof.
  revert h. induction calls as [|c calls IH]; intros h; simpl.
  - repeat split. by destruct (_worklist_id (self h)).
  - destruct (IH (invoke h c)) as (Hc & Hv & Hk).
    destruct (invoke_frame h c) as (Hc' & Hv' & Hk').
    repeat split; [congruence..|]. by eapply cache_kept_trans.
Qed.

End Runner_claims.

(** ** [fetch_customizing] *)

Section Customizing_claims.
Context `{Collaborators}.

Lemma omap_variant_none (events : list sax_event) :
  (∀ ev, ev ∈ events → variant_property ev = None) →
  omap variant_property events = [].
Proof.
  induction events as [|ev events IH]; intros Hnone; simpl; [done|].
  rewrite (Hnone ev) by left. apply IH. intros ev' Hin.
  apply Hnone. by right.
Qed.

Lemma startElement_variant c name attrs :
  system_check_variant (startElement c name attrs)
  = match variant_property (StartElement name attrs) with
    | Some attrs' => attrs' !! "value"
    | None => system_check_variant c
    end.
Proof. unfold startElement, variant_property. by case_bool_decide. Qed.

(** The handler run over the events keeps the [value] of the last
    matching start tag, or what it started with. *)
Lemma handler_keeps_last (events : list sax_event) (c : Customizing) :
  system_check_variant (foldl handle_event c events)
  = match last (omap variant_property events) with
    | Some attrs => attrs !! "value"
    | None => system_check_variant c
    end.
Proof.
  revert c. induction events as [|ev events IH]; intros c; [done|].
  simpl foldl. rewrite IH.
  change (omap variant_property (ev :: events))
    with (match variant_property ev with
          | Some a => a :: omap variant_property events
          | None => omap variant_property events
          end).
  assert (Hev : system_check_variant (handle_event c ev)
                = match variant_property ev with
                  | Some attrs' => attrs' !! "value"
                  | None => system_check_variant c
                  end).
  { destruct ev; [apply startElement_variant|done..]. }
  rewrite Hev. destruct (variant_property ev) as [attrs'|]; [|done].
  rewrite last_cons. by destruct (last (omap variant_property events)).
Qed.

(** C9: when the connection answers the GET of [atc/customizing] and the
    answer parses, [fetch_customizing] returns a [Customizing] whose
    [system_check_variant] is decided by the last [property] start tag
    with [name] equal to [systemCheckVariant]: it is that tag's [value]
    attribute, [None] when the tag has none, whatever earlier tags said;
    and it is [None] when the document has no such tag. *)
Theorem fetch_customizing_last_property (h : heap) (connection : Connection)
    (w : World) (resp : Response) (events : list sax_event)
    (Hanswer :
       conn_execute connection
         (mkRequest GET "atc/customizing" None
            (Some (AcceptList ["application/xml";
                               "application/vnd.sap.atc.customizing-v1+xml"]))
            None None) (world h)
       = (w, Return resp))
    (Hparse : sax_parseString (text resp) = Return events) :
  ∃ variant,
    (fetch_customizing connection h).2
    = Return {| system_check_variant := variant |}
    ∧ variant = last_variant_value events
    ∧ ((∀ ev, ev ∈ events → variant_property ev = None) → variant = None)
    ∧ (∀ before attrs after,
         events = before ++ StartElement "property" attrs :: after →
         attrs !! "name" = Some "systemCheckVariant" →
         (∀ ev, ev ∈ after → variant_property ev = None) →
         variant = attrs !! "value").
Proof.
  exists (last_variant_value events). repeat split.
  - unfold fetch_customizing.
    erewrite bind_Return; [|by apply execute_eq, Hanswer].
    erewrite call_Return; [|exact Hparse].
    simpl. f_equal.
    pose proof (handler_keeps_last events Customizing_init) as Hlast.
    destruct (foldl handle_event Customizing_init events) as [v].
    simpl in Hlast. unfold last_variant_value. by rewrite Hlast.
  - intros Hnone. unfold last_variant_value.
    by rewrite omap_variant_none.
  - intros before attrs after -> Hname Hnone. unfold last_variant_value.
    assert (Hmatch : variant_property (StartElement "property" attrs)
                     = Some attrs).
    { unfold variant_property. by rewrite bool_decide_eq_true_2. }
    rewrite omap_app.
    change (omap variant_property (StartElement "property" attrs :: after))
      with (match variant_property (StartElement "property" attrs) with
            | Some a => a :: omap variant_property after
            | None => omap variant_property after
            end).
    rewrite Hmatch, (omap_variant_none after Hnone).
    by rewrite last_snoc.
Qed.

End Customizing_claims.

(** ** Overlapping callers *)

Section Overlap_claims.
Context `{Collaborators}.

(** The line-by-line reading agrees with the method: one caller run
    alone for four steps ends where [_get_id] ends. *)
Lemma step_agrees_with_get_id (h : heap) :
  run_schedule [0; 0; 0; 0]%nat (h, [Line198])
  = ((_get_id h).1,
     [match (_get_id h).2 with
      | Return id => Returned (Some id)
      | Raise e => Raised e
      end]).
Proof.
  unfold run_schedule, run_caller. simpl.
  destruct (_worklist_id (self h)) as [id|] eqn:Hid.
  - rewrite (get_id_cached h id Hid). simpl. by rewrite ?Hid.
  - simpl.
    destruct (conn_execute (_connection (self h))
                (create_worklist_request (_variant (self h))) (world h))
      as [w [resp|e]] eqn:Hex.
    + rewrite (get_id_created h w resp Hid Hex).
      by rewrite (execute_eq _ _ _ _ _ Hex).
    + rewrite (get_id_failed h w e Hid Hex).
      by rewrite (execute_eq _ _ _ _ _ Hex).
Qed.

End Overlap_claims.

(** ** The marshalling engine on the declared kinds *)

Module Marshalling_facts.
Import Marshalling.

Lemma xml_ind_children (P : xml → Prop) :
  (∀ name attrs children, Forall P children → P (Element name attrs children)) →
  (∀ content, P (Text content)) →
  ∀ t, P t.
Proof.
  intros HElement HText. fix IH 1. intros [name attrs children|content].
  - apply HElement. induction children as [|c cs IHcs].
    + apply Forall_nil_2.
    + apply Forall_cons_2; [apply IH|apply IHcs].
  - apply HText.
Qed.

Lemma sax_events_Element name attrs children :
  sax_events (Element name attrs children)
  = StartElement name (list_to_map attrs)
      :: concat (map sax_events children) ++ [EndElement name].
Proof.
  simpl. do 2 f_equal. induction children as [|c cs IH]; [done|].
  simpl. by rewrite IH.
Qed.

Section Skipping.
Variable target_kind : option kind.

(** Below a skip frame a whole subtree is passed over: the interpreter is
    back where it was, whatever the subtree holds. *)
Lemma skip_subtree (t : xml) :
  ∀ stack target,
    foldl (on_event target_kind) (FSkip :: stack, target) (sax_events t)
    = (FSkip :: stack, target).
Proof.
  induction t as [name attrs children IH|content] using xml_ind_children;
    intros stack target; [|done].
  rewrite sax_events_Element. simpl foldl. rewrite foldl_app.
  assert (Hchildren :
    ∀ stack', foldl (on_event target_kind) (FSkip :: stack', target)
                (concat (map sax_events children))
              = (FSkip :: stack', target)).
  { induction IH as [|c cs Hc _ IHcs]; intros stack'; [done|].
    simpl. by rewrite foldl_app, Hc, IHcs. }
  by rewrite Hchildren.
Qed.

Lemma skip_children (children : list xml) stack target :
  foldl (on_event target_kind) (FSkip :: stack, target)
    (concat (map sax_events children))
  = (FSkip :: stack, target).
Proof.
  induction children as [|c cs IH]; [done|].
  simpl. by rewrite foldl_app, skip_subtree, IH.
Qed.


End Skipping.

(** C4: a [RunRequest] with [max_verdicts = 100] and an object-set
    selection serializes to a document whose root is [atc:run], declaring
    the atc namespace and carrying [maximumVerdicts="100"], with the one
    child [objectSets] that holds the serialized selection; deserializing
    that document into a new instance of the class gives [max_verdicts] the
    number 100 again. *)
Theorem run_request_document (classes : gmap string kind) (obj_sets : value)
    (set_attrs : list (string * string)) (set_children : list xml)
    (Hdeclared : classes !! "RunRequest" = Some RunRequest_kind)
    (Hselection : contents_of classes obj_sets
                  = Return (set_attrs, set_children)) :
  let document :=
    Element "atc:run"
      [("xmlns:atc", "http://www.sap.com/adt/atc"); ("maximumVerdicts", "100")]
      [Element "objectSets" set_attrs set_children] in
  serialize classes (RunRequest obj_sets 100) = Return document
  ∧ getattr (deserialize classes document (VObject "RunRequest" []))
      "max_verdicts" = Some (VInt 100).
Proof.
  cbv zeta. split.
  - unfold serialize, RunRequest. rewrite Hdeclared.
    unfold RunRequest_kind at 1. cbn [contents_of]. rewrite Hdeclared.
    unfold RunRequest_kind. cbn [fst snd]. rewrite Hselection. reflexivity.
  - unfold deserialize, deserialize_events. simpl class_of.
    rewrite Hdeclared, sax_events_Element. cbn [map concat].
    rewrite sax_events_Element, app_nil_r.
    set (populated := VObject "RunRequest" [("max_verdicts", VInt 100)]).
    assert (Hroot :
      on_event (Some RunRequest_kind) ([], VObject "RunRequest" [])
        (StartElement "atc:run"
           (list_to_map [("xmlns:atc", "http://www.sap.com/adt/atc");
                         ("maximumVerdicts", "100")]))
      = ([FInstance ToTarget RunRequest_kind populated],
         VObject "RunRequest" [])) by reflexivity.
    cbn [foldl]. rewrite Hroot, foldl_app. cbn [foldl].
    change (on_event (Some RunRequest_kind)
              ([FInstance ToTarget RunRequest_kind populated],
               VObject "RunRequest" [])
              (StartElement "objectSets" (list_to_map set_attrs)))
      with ([FSkip; FInstance ToTarget RunRequest_kind populated],
            VObject "RunRequest" []).
    by rewrite foldl_app, skip_children.
Qed.

Lemma run_request_document_witness :
  serialize sample_classes (RunRequest sample_selection 100)
  = Return
      (Element "atc:run"
         [("xmlns:atc", "http://www.sap.com/adt/atc"); ("maximumVerdicts", "100")]
         [Element "objectSets" [("kind", "inclusive")] []])
  ∧ getattr
      (deserialize sample_classes
         (Element "atc:run"
            [("xmlns:atc", "http://www.sap.com/adt/atc");
             ("maximumVerdicts", "100")]
            [Element "objectSets" [("kind", "inclusive")] []])
         (VObject "RunRequest" []))
      "max_verdicts" = Some (VInt 100).
Proof.
  exact (run_request_document sample_classes sample_selection
           [("kind", "inclusive")] [] eq_refl eq_refl).
Defined.

(** Another selection gives another document. *)
Example selections_are_told_apart :
  serialize sample_classes
    (RunRequest (VObject "ADTObjectSets" [("kind", VStr "exclusive")]) 100)
  = Return
      (Element "atc:run"
         [("xmlns:atc", "http://www.sap.com/adt/atc"); ("maximumVerdicts", "100")]
         [Element "objectSets" [("kind", "exclusive")] []]).
Proof. reflexivity. Qed.

(** A selection whose class is not declared cannot be serialized. *)
Example undeclared_selection_is_an_error :
  serialize atc_classes (RunRequest sample_selection 100)
  = Raise (MissingObjectType "ADTObjectSets").
Proof. reflexivity. Qed.

(** The decimal type of the binding is what brings the number back: were
    the bound declared as text, the same document would give the text. *)
Example run_request_text_binding :
  getattr
    (deserialize {[ "RunRequest" := RunRequest_text_kind ]}
       (Element "atc:run"
          [("xmlns:atc", "http://www.sap.com/adt/atc");
           ("maximumVerdicts", "100")]
          [Element "objectSets" [] []])
       (VObject "RunRequest" []))
    "max_verdicts" = Some (VStr "100").
Proof. reflexivity. Qed.




(** With [info] elements the collection is made when the first one
    arrives and holds them in document order. *)
Example run_response_two_infos :
  field_value atc_classes
    (deserialize atc_classes
       (worklist_run_document
          [Element "atcworklist:infos" []
             [Element "atcinfo:info" []
                [Element "atcinfo:type" [] [Text "FINDING_STATS"];
                 Element "atcinfo:description" [] [Text "0,0,1"]];
              Element "atcinfo:info" []
                [Element "atcinfo:type" [] [Text "NOTE"]]]])
       RunResponse)
    "infos"
  = Some (VContainer "ATCInfoList"
            [VObject "ATCInfo" [("typ", VStr "FINDING_STATS");
                                ("description", VStr "0,0,1")];
             VObject "ATCInfo" [("typ", VStr "NOTE")]]).
Proof. reflexivity. Qed.

End Marshalling_facts.

(** ** The scripted connection at work *)

Section Scripted_scenarios.
#[local] Existing Instance Scripted.



Lemma run_for_steps_witness :
  let h := @mkHeap Echoing (@ChecksRunner_init Echoing () "STANDARD")
             [answer "WL1"; answer "<run/>"; answer "<list/>"] [] in
  @run_for Echoing sample_selection None h
  = (@mkHeap Echoing (@mkChecksRunner Echoing () "STANDARD" (Some "WL1")) []
       [ create_worklist_request "STANDARD";
         mkRequest POST "atc/runs" (Some {[ "worklistId" := "WL1" ]})
           (Some (AcceptOne "application/xml")) (Some "application/xml")
           (Some "<atc:run maximumVerdicts='100'><objectSets class='ADTObjectSets'/></atc:run>");
         mkRequest GET "atc/worklists/WL1"
           (Some {[ "includeExemptedFindings" := "false" ]})
           (Some (AcceptOne "application/atc.worklist.v1+xml")) None None ],
     Return (kept "<run/>" "<list/>"))
  ∧ (@run_for Echoing sample_selection (Some 7) h).2
    = Return (kept "<run/>" "<list/>")
  ∧ req_body <$> requests (@run_for Echoing sample_selection (Some 7) h).1 !! 1%nat
    = Some (Some "<atc:run maximumVerdicts='7'><objectSets class='ADTObjectSets'/></atc:run>").
Proof.
  intros h.
  destruct (@run_for_steps Echoing h sample_selection None) as [_ Hdefault].
  destruct (Hdefault _ _ "WL1" eq_refl eq_refl
              [answer "<list/>"] (mkResponse "<run/>") eq_refl) as [_ Hok].
  destruct (@run_for_steps Echoing h sample_selection (Some 7)) as [_ Hseven].
  destruct (Hseven _ _ "WL1" eq_refl eq_refl
              [answer "<list/>"] (mkResponse "<run/>") eq_refl) as [_ Hok7].
  rewrite (Hok _ [] (mkResponse "<list/>") _ eq_refl eq_refl eq_refl).
  rewrite (Hok7 _ [] (mkResponse "<list/>") _ eq_refl eq_refl eq_refl).
  repeat split.
Defined.

Lemma run_for_transport_failure_witness :
  (run_for sample_selection None
     (scripted_heap [answer "WL1"; Raise "timeout"])).2 = Raise "timeout"
  ∧ (run_for sample_selection None
       (scripted_heap [answer "WL1"; answer "<run/>"; Raise "reset"])).2
    = Raise "reset".
Proof.
  split.
  - destruct (run_for_transport_failure
                (scripted_heap [answer "WL1"; Raise "timeout"]) _
                sample_selection None "<atc:run/>" "WL1" eq_refl eq_refl)
      as [Hsubmit _].
    rewrite (Hsubmit [] "timeout" eq_refl). reflexivity.
  - destruct (run_for_transport_failure
                (scripted_heap [answer "WL1"; answer "<run/>"; Raise "reset"])
                _ sample_selection None "<atc:run/>" "WL1" eq_refl eq_refl)
      as [_ Hfetch].
    rewrite (Hfetch [Raise "reset"] (mkResponse "<run/>") _ [] "reset"
               eq_refl eq_refl eq_refl).
    reflexivity.
Defined.

Lemma get_id_failure_keeps_unset_witness :
  let h := scripted_heap [Raise "timeout"; answer "WL1"] in
  (_get_id h).2 = Raise "timeout"
  ∧ _worklist_id (self (_get_id h).1) = None
  ∧ (_get_id (_get_id h).1).2 = Return "WL1".
Proof.
  intros h.
  destruct (get_id_failure_keeps_unset h [answer "WL1"] "timeout"
              eq_refl eq_refl) as (Hraise & _ & Hunset & _ & _ & Hretry & _).
  destruct (Hretry [] (mkResponse "WL1") eq_refl) as [Hreturn _].
  exact (conj Hraise (conj Hunset Hreturn)).
Defined.

Lemma fetch_customizing_last_property_witness :
  (fetch_customizing () (scripted_heap [answer customizing_document])).2
  = Return {| system_check_variant := Some "STANDARD" |}.
Proof.
  destruct (fetch_customizing_last_property
              (scripted_heap [answer customizing_document]) ()
              [] (mkResponse customizing_document) customizing_events
              eq_refl eq_refl) as (variant & -> & -> & _).
  reflexivity.
Defined.

(** Calls that fail do not disturb the cache. *)
Example failing_calls_keep_cache :
  _worklist_id
    (self (foldl invoke
             (scripted_heap [answer "WL1"; Raise "timeout"; answer "<run/>"])
             [Invoke_run_for sample_selection None; Invoke_get_id;
              Invoke_run_for sample_selection (Some 5)]))
  = Some "WL1".
Proof. reflexivity. Qed.

End Scripted_scenarios.


(** * Further properties of the runner and of the customizing reader *)

(** ** The requests of one invocation *)

Section Request_facts.
Context `{Collaborators}.

(** What [_get_id] adds to the recorded requests: nothing when the
    identifier is cached, the creation request otherwise. *)
Lemma get_id_requests h :
  requests (_get_id h).1
  = requests h
    ++ match _worklist_id (self h) with
       | None => [create_worklist_request (_variant (self h))]
       | Some _ => []
       end.
Proof.
  destruct (_worklist_id (self h)) as [id|] eqn:Hid.
  - rewrite (get_id_cached h id Hid). simpl. by rewrite app_nil_r.
  - destruct (conn_execute (_connection (self h))
                (create_worklist_request (_variant (self h))) (world h))
      as [w [resp|e]] eqn:Hex.
    + by rewrite (get_id_created h w resp Hid Hex).
    + by rewrite (get_id_failed h w e Hid Hex).
Qed.

(** Once [_get_id] has returned inside [run_for], the runner is settled
    and the submission goes out, followed by the fetch or by nothing. *)
Lemma run_for_after_get_id h h1 obj_sets max_verdicts body id :
  Marshal_serialize (RunRequest obj_sets (default 100 max_verdicts))
  = Return body →
  _get_id h = (h1, Return id) →
  self (run_for obj_sets max_verdicts h).1 = self h1
  ∧ (requests (run_for obj_sets max_verdicts h).1
     = requests h1 ++ [run_request_of id body]
     ∨ requests (run_for obj_sets max_verdicts h).1
       = requests h1 ++ [run_request_of id body; fetch_worklist_request id]).
Proof.
  intros Hser Hget. rewrite run_for_eq, Hser, Hget.
  pose proof (execute_self (_connection (self h1))
                (run_request_of id body) h1) as S2.
  pose proof (execute_requests (_connection (self h1))
                (run_request_of id body) h1) as R2.
  destruct (execute _ _ h1) as [h2 [resp|e]]; simpl in S2, R2; [|by auto].
  destruct (Marshal_deserialize (text resp) RunResponse) as [rr|e];
    [|by auto].
  pose proof (execute_self (_connection (self h2))
                (fetch_worklist_request id) h2) as S3.
  pose proof (execute_requests (_connection (self h2))
                (fetch_worklist_request id) h2) as R3.
  assert (Hboth : requests h2 ++ [fetch_worklist_request id]
                  = requests h1 ++ [run_request_of id body;
                                    fetch_worklist_request id])
    by (by rewrite R2, <- app_assoc).
  destruct (execute _ _ h2) as [h3 [resp'|e]]; simpl in S3, R3.
  - destruct (Marshal_deserialize (text resp') WorkList); simpl;
      (split; [congruence|right; congruence]).
  - simpl. split; [congruence|right; congruence].
Qed.

Lemma run_for_serialize_failed h obj_sets max_verdicts e :
  Marshal_serialize (RunRequest obj_sets (default 100 max_verdicts)) = Raise e →
  run_for obj_sets max_verdicts h = (h, Raise e).
Proof. intros Hser. by rewrite run_for_eq, Hser. Qed.

Lemma run_for_get_id_failed h h1 obj_sets max_verdicts body e :
  Marshal_serialize (RunRequest obj_sets (default 100 max_verdicts))
  = Return body →
  _get_id h = (h1, Raise e) →
  run_for obj_sets max_verdicts h = (h1, Raise e).
Proof. intros Hser Hget. by rewrite run_for_eq, Hser, Hget. Qed.

(** [_get_id] raises only on a runner without identifier, and leaves it
    without. *)
Lemma get_id_Raise_inv h h1 e :
  _get_id h = (h1, Raise e) →
  _worklist_id (self h) = None ∧ self h1 = self h.
Proof.
  destruct (_worklist_id (self h)) as [id|] eqn:Hid.
  - by rewrite (get_id_cached h id Hid).
  - destruct (conn_execute (_connection (self h))
                (create_worklist_request (_variant (self h))) (world h))
      as [w [resp|e']] eqn:Hex.
    + by rewrite (get_id_created h w resp Hid Hex).
    + rewrite (get_id_failed h w e' Hid Hex). by intros [= <- _].
Qed.

End Request_facts.

Section Request_order.
Context `{Collaborators}.

(** X3: the requests of one [run_for], whatever its outcome.  Either the
    serialization failed and the heap is untouched; or the runner had no
    identifier, the creation request went out and failed, and the runner
    still has none; or the runner ends with an identifier and what went out
    is the creation request (only when there was no identifier before), the
    submission with that identifier, and then the fetch with it or nothing.
    So no fetch goes out before a submission, and no submission without an
    identifier. *)
Theorem run_for_request_order (h : heap) (obj_sets : value)
    (max_verdicts : option Z) :
  let h' := (run_for obj_sets max_verdicts h).1 in
  let created :=
    match _worklist_id (self h) with
    | None => [create_worklist_request (_variant (self h))]
    | Some _ => []
    end in
  (∃ e, Marshal_serialize (RunRequest obj_sets (default 100 max_verdicts))
        = Raise e ∧ h' = h)
  ∨ (_worklist_id (self h) = None ∧ _worklist_id (self h') = None
     ∧ requests h' = requests h ++ created)
  ∨ ∃ id body,
      _worklist_id (self h') = Some id
      ∧ Marshal_serialize (RunRequest obj_sets (default 100 max_verdicts))
        = Return body
      ∧ (requests h' = requests h ++ created ++ [run_request_of id body]
         ∨ requests h'
           = requests h ++ created
             ++ [run_request_of id body; fetch_worklist_request id]).
Proof.
  cbv zeta.
  destruct (Marshal_serialize (RunRequest obj_sets (default 100 max_verdicts)))
    as [body|e] eqn:Hser.
  - right. pose proof (get_id_requests h) as Hreqs.
    destruct (_get_id h) as [h1 [id|e]] eqn:Hget; simpl in Hreqs.
    + right. exists id, body.
      destruct (run_for_after_get_id h h1 obj_sets max_verdicts body id
                  Hser Hget) as [Hself Hsent].
      split; [|split; [done|]].
      * rewrite Hself. by apply (get_id_returns_cache h).
      * destruct Hsent as [-> | ->]; rewrite Hreqs, <- app_assoc; auto.
    + left. destruct (get_id_Raise_inv h h1 e Hget) as [Hunset Hself].
      rewrite (run_for_get_id_failed h h1 obj_sets max_verdicts body e
                 Hser Hget).
      simpl. by rewrite Hself.
  - left. exists e. split; [done|].
    by rewrite (run_for_serialize_failed h obj_sets max_verdicts e Hser).
Qed.

(** What one invocation adds to the recorded requests. *)
Lemma invoke_requests h c :
  ∃ new,
    requests (invoke h c) = requests h ++ new
    ∧ (length new ≤ 3)%nat
    ∧ ∀ id, _worklist_id (self h) = Some id →
        Forall (λ r, r = fetch_worklist_request id
                     ∨ ∃ body, r = run_request_of id body) new.
Proof.
  destruct c as [|obj_sets max_verdicts]; simpl.
  - eexists. split; [apply get_id_requests|].
    destruct (_worklist_id (self h)); simpl; split; try lia; by intros.
  - destruct (Marshal_serialize (RunRequest obj_sets (default 100 max_verdicts)))
      as [body|e] eqn:Hser.
    + pose proof (get_id_requests h) as Hreqs.
      destruct (_get_id h) as [h1 [id|e]] eqn:Hget; simpl in Hreqs.
      * destruct (run_for_after_get_id h h1 obj_sets max_verdicts body id
                    Hser Hget) as [_ Hsent].
        destruct (_worklist_id (self h)) as [id0|] eqn:Hid.
        -- rewrite (get_id_cached h id0 Hid) in Hget.
           injection Hget as <- <-.
           destruct Hsent as [-> | ->]; eexists; (split; [done|]);
             (split; [simpl; lia|]); intros ? [= <-];
             repeat apply Forall_cons_2; eauto using Forall_nil_2.
        -- destruct Hsent as [-> | ->]; rewrite Hreqs, <- app_assoc;
             eexists; (split; [done|]); by (split; [simpl; lia|]).
      * rewrite (run_for_get_id_failed h h1 obj_sets max_verdicts body e
                   Hser Hget). simpl.
        eexists. split; [exact Hreqs|].
        destruct (_worklist_id (self h)); simpl; split; try lia; by intros.
    + rewrite (run_for_serialize_failed h obj_sets max_verdicts e Hser).
      exists []. simpl. rewrite app_nil_r. split; [done|]. split; [lia|].
      intros. apply Forall_nil_2.
Qed.

(** X1: whatever the caller invokes, and whatever fails, the requests
    recorded so far stay as they are and in their order; each invocation
    adds at most three. *)
Theorem requests_only_grow (calls : list invocation) (h : heap) :
  ∃ new,
    requests (foldl invoke h calls) = requests h ++ new
    ∧ (length new ≤ 3 * length calls)%nat.
Proof.
  revert h. induction calls as [|c calls IH]; intros h; simpl.
  - exists []. by rewrite app_nil_r.
  - destruct (invoke_requests h c) as (new1 & Hreqs1 & Hlen1 & _).
    destruct (IH (invoke h c)) as (new2 & Hreqs2 & Hlen2).
    exists (new1 ++ new2). rewrite Hreqs2, Hreqs1, <- app_assoc.
    split; [done|]. rewrite length_app. lia.
Qed.

Lemma reuse_is_no_creation id (new : list Request) :
  Forall (λ r, r = fetch_worklist_request id
               ∨ ∃ body, r = run_request_of id body) new →
  creations new = [].
Proof.
  induction 1 as [|r new Hr _ IH]; [done|].
  unfold creations in *. rewrite filter_cons_False; [done|].
  destruct Hr as [-> | [body ->]]; simpl; intros [? ?]; discriminate.
Qed.

(** With the identifier cached, a sequence of invocations adds only
    submissions and fetches that carry it, and keeps it. *)
Lemma cached_requests (calls : list invocation) (h : heap) (id : string) :
  _worklist_id (self h) = Some id →
  ∃ new,
    requests (foldl invoke h calls) = requests h ++ new
    ∧ Forall (λ r, r = fetch_worklist_request id
                   ∨ ∃ body, r = run_request_of id body) new
    ∧ _worklist_id (self (foldl invoke h calls)) = Some id.
Proof.
  revert h. induction calls as [|c calls IH]; intros h Hcached; simpl.
  - exists []. rewrite app_nil_r. split; [done|]. split; [apply Forall_nil_2|done].
  - destruct (invoke_requests h c) as (new1 & Hreqs1 & _ & Hshape1).
    destruct (invoke_frame h c) as (_ & _ & Hkept).
    rewrite Hcached in Hkept. simpl in Hkept.
    destruct (IH (invoke h c) Hkept) as (new2 & Hreqs2 & Hshape2 & Hid2).
    exists (new1 ++ new2). rewrite Hreqs2, Hreqs1, <- app_assoc.
    split; [done|]. split; [|done]. apply Forall_app_2; auto.
Qed.

(** X2: on a runner whose identifier is cached, no sequence of [_get_id]
    and [run_for] calls, failing or not, sends a creation request again:
    every request it adds is a run submission or a result fetch that
    carries the cached identifier. *)
Theorem cached_identifier_is_reused (calls : list invocation) (h : heap)
    (id : string) (Hcached : _worklist_id (self h) = Some id) :
  ∃ new,
    requests (foldl invoke h calls) = requests h ++ new
    ∧ Forall (λ r, r = fetch_worklist_request id
                   ∨ ∃ body, r = run_request_of id body) new
    ∧ creations (requests (foldl invoke h calls)) = creations (requests h).
Proof.
  destruct (cached_requests calls h id Hcached) as (new & Hreqs & Hshape & _).
  exists new. repeat split; try done.
  rewrite Hreqs. unfold creations. rewrite filter_app.
  fold (creations new). rewrite (reuse_is_no_creation id new Hshape).
  by rewrite app_nil_r.
Qed.

(** One invocation on a runner without identifier: either the runner is
    still without, and only creation requests were added; or the creation
    request was answered, and what follows it carries the new identifier. *)
Lemma invoke_from_unset h c :
  _worklist_id (self h) = None →
  (∃ new,
     requests (invoke h c) = requests h ++ new
     ∧ Forall (λ r, r = create_worklist_request (_variant (self h))) new
     ∧ _worklist_id (self (invoke h c)) = None)
  ∨ (∃ id sent,
       requests (invoke h c)
       = requests h ++ create_worklist_request (_variant (self h)) :: sent
       ∧ Forall (λ r, r = fetch_worklist_request id
                      ∨ ∃ body, r = run_request_of id body) sent
       ∧ _worklist_id (self (invoke h c)) = Some id).
Proof.
  intros Hunset.
  assert (Hfailed : ∀ h1 e,
    _get_id h = (h1, Raise e) →
    requests h1 = requests h ++ [create_worklist_request (_variant (self h))]
    ∧ _worklist_id (self h1) = None).
  { intros h1 e Hget. pose proof (get_id_requests h) as Hreqs.
    rewrite Hget, Hunset in Hreqs.
    destruct (get_id_Raise_inv h h1 e Hget) as [_ Hself].
    by rewrite Hself. }
  destruct c as [|obj_sets max_verdicts]; simpl.
  - destruct (_get_id h) as [h1 [id|e]] eqn:Hget.
    + right. destruct (get_id_fresh_inv h h1 id Hunset Hget) as [Hreqs Hself].
      exists id, []. simpl. rewrite Hself.
      split; [done|]. split; [apply Forall_nil_2|done].
    + left. destruct (Hfailed h1 e eq_refl) as [Hreqs Hnone].
      eexists. split; [exact Hreqs|]. split; [by apply Forall_singleton|done].
  - destruct (Marshal_serialize (RunRequest obj_sets (default 100 max_verdicts)))
      as [body|e] eqn:Hser.
    + destruct (_get_id h) as [h1 [id|e]] eqn:Hget.
      * right. destruct (get_id_fresh_inv h h1 id Hunset Hget) as [Hreqs Hself].
        destruct (run_for_after_get_id h h1 obj_sets max_verdicts body id
                    Hser Hget) as [Hself' Hsent].
        exists id.
        destruct Hsent as [-> | ->]; rewrite Hreqs, <- app_assoc;
          eexists; (split; [reflexivity|]); rewrite Hself', Hself;
          (split; [|done]); repeat apply Forall_cons_2;
          eauto using Forall_nil_2.
      * left. destruct (Hfailed h1 e eq_refl) as [Hreqs Hnone].
        rewrite (run_for_get_id_failed h h1 obj_sets max_verdicts body e
                   Hser Hget). simpl.
        eexists. split; [exact Hreqs|].
        split; [by apply Forall_singleton|done].
    + left. rewrite (run_for_serialize_failed h obj_sets max_verdicts e Hser).
      exists []. simpl. rewrite app_nil_r.
      split; [done|]. split; [apply Forall_nil_2|done].
Qed.

(** X7: the requests of a runner's life.  From a runner without
    identifier, any sequence of [_get_id] and [run_for] calls adds first
    creation requests, all with the runner's variant, and after them only
    submissions and fetches, all with the identifier the runner ends up
    with; while the runner has no identifier nothing but creation requests
    has gone out. *)
Theorem request_log_shape (calls : list invocation) (h : heap)
    (Hunset : _worklist_id (self h) = None) :
  ∃ attempts rest,
    requests (foldl invoke h calls) = requests h ++ attempts ++ rest
    ∧ Forall (λ r, r = create_worklist_request (_variant (self h))) attempts
    ∧ match _worklist_id (self (foldl invoke h calls)) with
      | None => rest = []
      | Some id =>
          attempts ≠ []
          ∧ Forall (λ r, r = fetch_worklist_request id
                         ∨ ∃ body, r = run_request_of id body) rest
      end.
Proof.
  revert h Hunset. induction calls as [|c calls IH]; intros h Hunset; simpl.
  - exists [], []. simpl. rewrite app_nil_r, Hunset.
    split; [done|]. split; [apply Forall_nil_2|done].
  - destruct (invoke_frame h c) as (_ & Hvariant & _).
    destruct (invoke_from_unset h c Hunset)
      as [(new & Hreqs & Hshape & Hstill) | (id & sent & Hreqs & Hshape & Hid)].
    + destruct (IH (invoke h c) Hstill) as (attempts & rest & Hreqs' & Hatt & Hrest).
      exists (new ++ attempts), rest.
      rewrite Hreqs', Hreqs, <- !app_assoc. split; [done|].
      rewrite Hvariant in Hatt. split; [by apply Forall_app_2|].
      destruct (_worklist_id (self (foldl invoke (invoke h c) calls)));
        [|done].
      destruct Hrest as [Hne Hrest]. split; [|done].
      intros Hnil. apply app_eq_nil in Hnil as [_ ?]. done.
    + destruct (cached_requests calls (invoke h c) id Hid)
        as (new2 & Hreqs2 & Hshape2 & ->).
      exists [create_worklist_request (_variant (self h))], (sent ++ new2).
      rewrite Hreqs2, Hreqs, <- !app_assoc. simpl.
      split; [done|]. split; [by apply Forall_singleton|].
      split; [done|]. by apply Forall_app_2.
Qed.

End Request_order.

(** ** More on [fetch_customizing] and its handler *)

Section Customizing_facts.
Context `{Collaborators}.

(** X4: [fetch_customizing] sends exactly one request, the GET of
    [atc/customizing] without parameters and body, whatever comes of it,
    and leaves the runner alone.  An exception of the connection, or of the
    parser on the answer, is what the caller gets; otherwise the result is
    what the handler has collected from a new [Customizing]. *)
Theorem fetch_customizing_one_request (h : heap) (connection : Connection) :
  let req :=
    mkRequest GET "atc/customizing" None
      (Some (AcceptList ["application/xml";
                         "application/vnd.sap.atc.customizing-v1+xml"]))
      None None in
  let after := (fetch_customizing connection h).1 in
  requests after = requests h ++ [req]
  ∧ self after = self h
  ∧ world after = (conn_execute connection req (world h)).1
  ∧ match (conn_execute connection req (world h)).2 with
    | Raise e => (fetch_customizing connection h).2 = Raise e
    | Return resp =>
        match sax_parseString (text resp) with
        | Raise e => (fetch_customizing connection h).2 = Raise e
        | Return events =>
            (fetch_customizing connection h).2
            = Return (foldl handle_event {| system_check_variant := None |}
                        events)
        end
    end.
Proof.
  cbv zeta. unfold fetch_customizing.
  destruct (conn_execute connection _ (world h)) as [w [resp|e]] eqn:Hanswer.
  - erewrite bind_Return; [|by apply execute_eq, Hanswer].
    unfold mbind, M_bind, call, mret, M_ret. simpl.
    by destruct (sax_parseString (text resp)).
  - by erewrite bind_Raise; [|by apply execute_eq, Hanswer].
Qed.

Lemma variant_property_None name attrs :
  ¬ (name = "property" ∧ attrs !! "name" = Some "systemCheckVariant") →
  variant_property (StartElement name attrs) = None.
Proof. intros Hno. unfold variant_property. by rewrite bool_decide_eq_false_2. Qed.

Lemma variant_property_Some name attrs :
  name = "property" → attrs !! "name" = Some "systemCheckVariant" →
  variant_property (StartElement name attrs) = Some attrs.
Proof.
  intros Hname Hattr. unfold variant_property.
  by rewrite bool_decide_eq_true_2.
Qed.

(** X5: the handler on a [Customizing] that already holds a value.  Events
    without a [property] start tag named [systemCheckVariant] leave the
    object exactly as it was; events with such a tag make the outcome
    independent of what the object held. *)
Theorem handler_keeps_or_overwrites (events : list sax_event)
    (c : Customizing) :
  ((∀ name attrs,
      StartElement name attrs ∈ events →
      ¬ (name = "property" ∧ attrs !! "name" = Some "systemCheckVariant")) →
   foldl handle_event c events = c)
  ∧ ((∃ attrs,
        StartElement "property" attrs ∈ events
        ∧ attrs !! "name" = Some "systemCheckVariant") →
     ∀ c', foldl handle_event c' events = foldl handle_event c events).
Proof.
  split.
  - intros Hnone.
    pose proof (handler_keeps_last events c) as Hlast.
    rewrite omap_variant_none in Hlast.
    + destruct (foldl handle_event c events), c. simpl in Hlast. congruence.
    + intros [name attrs|content|name] Hin; [|done..].
      by apply variant_property_None, Hnone.
  - intros (attrs & Hin & Hname) c'.
    pose proof (handler_keeps_last events c) as Hlast.
    pose proof (handler_keeps_last events c') as Hlast'.
    assert (Hsome : is_Some (last (omap variant_property events))).
    { apply last_is_Some. intros Hempty.
      assert (Hattrs : attrs ∈ omap variant_property events).
      { apply list_elem_of_omap. eexists. split; [exact Hin|].
        by apply variant_property_Some. }
      rewrite Hempty in Hattrs. by apply not_elem_of_nil in Hattrs. }
    destruct Hsome as [a Ha]. rewrite Ha in Hlast, Hlast'.
    destruct (foldl handle_event c events), (foldl handle_event c' events).
    simpl in *. congruence.
Qed.

End Customizing_facts.

(** ** Any number of overlapping callers *)

Section Overlap_facts.
Context `{Collaborators}.

Lemma pending_cons p callers :
  pending (p :: callers)
  = ((if awaiting p then 1 else 0) + pending callers)%nat.
Proof.
  unfold pending. rewrite filter_cons.
  destruct (awaiting p); by case_decide.
Qed.

Lemma pending_app callers1 callers2 :
  pending (callers1 ++ callers2) = (pending callers1 + pending callers2)%nat.
Proof. unfold pending. by rewrite filter_app, length_app. Qed.

Lemma pending_insert callers i p p' :
  callers !! i = Some p →
  (pending (<[i:=p']> callers) + (if awaiting p then 1 else 0)
   = pending callers + (if awaiting p' then 1 else 0))%nat.
Proof.
  intros Hp. rewrite insert_take_drop by (by eapply lookup_lt_Some).
  rewrite <- (take_drop_middle callers i p Hp) at 3.
  rewrite !pending_app, !pending_cons. lia.
Qed.

(** One line of one caller: at most one request, a creation request, and
    only by a caller that was still to make it. *)
Lemma step_budget p h :
  ∃ new,
    requests (step p h).1 = requests h ++ new
    ∧ Forall (λ r, r = create_worklist_request (_variant (self h))) new
    ∧ _variant (self (step p h).1) = _variant (self h)
    ∧ (length new + (if awaiting (step p h).2 then 1 else 0)
       ≤ (if awaiting p then 1 else 0))%nat.
Proof.
  destruct p as [| |resp| |id|e]; simpl.
  - exists []. rewrite app_nil_r. repeat split; [apply Forall_nil_2|].
    destruct (_worklist_id (self h)); simpl; lia.
  - pose proof (execute_requests (_connection (self h))
                  (create_worklist_request (_variant (self h))) h) as Hreqs.
    pose proof (execute_self (_connection (self h))
                  (create_worklist_request (_variant (self h))) h) as Hself.
    destruct (execute _ _ h) as [h' [resp|e]]; simpl in *;
      eexists; (split; [exact Hreqs|]); rewrite Hself;
      (repeat split; [by apply Forall_singleton|simpl; lia]).
  - exists []. rewrite app_nil_r. repeat split; [apply Forall_nil_2|simpl; lia].
  - exists []. rewrite app_nil_r. repeat split; [apply Forall_nil_2|simpl; lia].
  - exists []. rewrite app_nil_r. repeat split; [apply Forall_nil_2|simpl; lia].
  - exists []. rewrite app_nil_r. repeat split; [apply Forall_nil_2|simpl; lia].
Qed.

(** X6: callers of [_get_id] that share a runner, in any number and under
    any schedule, send nothing but creation requests with the runner's
    variant, and each caller sends at most one: the requests added, plus
    the callers that may still send theirs, never exceed the callers that
    were still to send when the schedule began. *)
Theorem each_caller_creates_at_most_once (schedule : list nat) (h : heap)
    (callers : list pc) :
  let final := run_schedule schedule (h, callers) in
  ∃ new,
    requests final.1 = requests h ++ new
    ∧ Forall (λ r, r = create_worklist_request (_variant (self h))) new
    ∧ _variant (self final.1) = _variant (self h)
    ∧ (length new + pending final.2 ≤ pending callers)%nat.
Proof.
  cbv zeta. revert h callers.
  induction schedule as [|i schedule IH]; intros h callers.
  - exists []. simpl. rewrite app_nil_r.
    repeat split; [apply Forall_nil_2|lia].
  - change (run_schedule (i :: schedule) (h, callers))
      with (run_schedule schedule (run_caller (h, callers) i)).
    unfold run_caller. simpl. destruct (callers !! i) as [p|] eqn:Hp.
    + destruct (step_budget p h) as (new1 & Hreqs1 & Hshape1 & Hvar1 & Hlen1).
      destruct (IH (step p h).1 (<[i:=(step p h).2]> callers))
        as (new2 & Hreqs2 & Hshape2 & Hvar2 & Hlen2).
      pose proof (pending_insert callers i p (step p h).2 Hp) as Hins.
      exists (new1 ++ new2). rewrite Hreqs2, Hreqs1, <- app_assoc.
      rewrite Hvar1 in Hshape2, Hvar2.
      repeat split; [by apply Forall_app_2|done|].
      rewrite length_app. lia.
    + apply IH.
Qed.

Lemma step_keeps_identifier p h :
  is_Some (_worklist_id (self h)) →
  is_Some (_worklist_id (self (step p h).1)).
Proof.
  intros Hsome. destruct p as [| |resp| |id|e]; simpl; try done.
  pose proof (execute_self (_connection (self h))
                (create_worklist_request (_variant (self h))) h) as Hself.
  destruct (execute _ _ h) as [h' [resp|e]]; simpl in *; by rewrite Hself.
Qed.

Lemma step_sound p h :
  caller_sound h p → caller_sound (step p h).1 (step p h).2.
Proof.
  destruct p as [| |resp| |id|e]; simpl; try done.
  - by destruct (_worklist_id (self h)) eqn:Hid; simpl; rewrite ?Hid.
  - by destruct (execute _ _ h) as [h' [resp|e]].
Qed.

Lemma caller_sound_mono h h' p :
  (is_Some (_worklist_id (self h)) → is_Some (_worklist_id (self h'))) →
  caller_sound h p → caller_sound h' p.
Proof. intros Hmono. destruct p; simpl; auto. Qed.

Lemma run_caller_sound st i :
  Forall (caller_sound st.1) st.2 →
  Forall (caller_sound (run_caller st i).1) (run_caller st i).2.
Proof.
  intros Hall. unfold run_caller. destruct (st.2 !! i) as [p|] eqn:Hp; [|done].
  simpl. apply Forall_insert.
  - eapply Forall_impl; [exact Hall|]. intros q.
    apply caller_sound_mono, step_keeps_identifier.
  - apply step_sound. rewrite Forall_lookup in Hall. by eapply Hall.
Qed.

(** X8: callers of [_get_id] that share a runner, in any number and under
    any schedule: a caller that returns, returns an identifier.  The
    attribute read by the [return] is never [None], whoever else has run in
    between. *)
Theorem callers_return_an_identifier (schedule : list nat) (h : heap)
    (n : nat) :
  Forall (λ p, ∀ id, p = Returned id → is_Some id)
    (run_schedule schedule (h, replicate n Line198)).2.
Proof.
  assert (Hsound : ∀ st,
    Forall (caller_sound st.1) st.2 →
    Forall (caller_sound (run_schedule schedule st).1)
      (run_schedule schedule st).2).
  { induction schedule as [|i schedule IH]; intros st Hst; [done|].
    change (run_schedule (i :: schedule) st)
      with (run_schedule schedule (run_caller st i)).
    by apply IH, run_caller_sound. }
  eapply Forall_impl.
  - apply (Hsound (h, replicate n Line198)). simpl.
    apply Forall_forall. by intros p ->%elem_of_replicate_inv.
  - intros p Hp id ->. exact Hp.
Qed.

End Overlap_facts.

(** ** Exclusion between callers *)

Section Exclusion.
Context `{Collaborators}.













End Exclusion.

(** ** The further properties on the scripted connection *)

Section Scripted_checks.
#[local] Existing Instance Scripted.

Lemma cached_identifier_is_reused_witness :
  let h := @mkHeap Scripted
             (@mkChecksRunner Scripted () "STANDARD" (Some "WL1"))
             [answer "<run/>"; Raise "timeout"; answer "<run/>";
              answer "<list/>"] [] in
  let calls := [Invoke_run_for sample_selection None; Invoke_get_id;
                Invoke_run_for sample_selection (Some 5)] in
  ∃ new,
    requests (foldl invoke h calls) = requests h ++ new
    ∧ Forall (λ r, r = fetch_worklist_request "WL1"
                   ∨ ∃ body, r = run_request_of "WL1" body) new
    ∧ creations (requests (foldl invoke h calls)) = creations (requests h).
Proof.
  intros h calls. exact (cached_identifier_is_reused calls h "WL1" eq_refl).
Defined.

Lemma request_log_shape_witness :
  let h := scripted_heap [Raise "timeout"; answer "WL1"; answer "<run/>";
                          Raise "reset"; answer "<run/>"; answer "<list/>"] in
  let calls := [Invoke_get_id; Invoke_run_for sample_selection None;
                Invoke_run_for sample_selection (Some 5)] in
  ∃ attempts rest,
    requests (foldl invoke h calls) = requests h ++ attempts ++ rest
    ∧ Forall (λ r, r = create_worklist_request (_variant (self h))) attempts
    ∧ match _worklist_id (self (foldl invoke h calls)) with
      | None => rest = []
      | Some id =>
          attempts ≠ []
          ∧ Forall (λ r, r = fetch_worklist_request id
                         ∨ ∃ body, r = run_request_of id body) rest
      end.
Proof.
  intros h calls. exact (request_log_shape calls h eq_refl).
Defined.


(** A caller that runs its test while another is between test and
    assignment is not admitted, although the other is left undisturbed. *)
Example overlap_is_not_exclusive :
  exclusive [1; 0; 0; 0; 0; 1; 1; 1]%nat
    (scripted_heap [answer "WL1"; answer "WL2"], [Line198; Line198])
  = false.
Proof. reflexivity. Qed.

(** The schedule of two alternating callers reaches the bound of one
    creation request for each, and both return an identifier. *)
Example two_callers_reach_the_bound :
  let final :=
    run_schedule [0; 1; 0; 1; 0; 1; 0; 1]%nat
      (scripted_heap [answer "WL1"; answer "WL2"], [Line198; Line198]) in
  length (requests final.1) = 2%nat ∧ pending final.2 = 0%nat.
Proof. vm_compute. done. Qed.

End Scripted_checks.
